(** * expo-auth-session: [Errors.ts]

    A shallow embedding of [packages/expo-auth-session/src/Errors.ts]: the
    catalog [errorCodeMessages] and the constructors of [ResponseError] and
    [AuthError], with the properties stated about them.

    JavaScript objects are finite maps from property names to values
    ([gmap string _]); a property read first consults the object's own
    properties and then its prototype, which for an object literal is
    [Object.prototype].  A computation either completes normally or throws. *)

From Stdlib Require Import String Ascii List.
From stdpp Require Import base option gmap strings list.
Import ListNotations.
Local Open Scope string_scope.

(** ** The fragment of JavaScript the module relies on *)

Module JS.

(** The values that flow through the constructors.  [VObject own] is a
    plain object (an object literal or a parsed response) whose own
    properties are strings and whose prototype is [Object.prototype];
    [VNative f] is the built-in function named [f]. *)
Inductive value : Type :=
| VUndefined
| VNull
| VString (s : string)
| VObject (own : gmap string string)
| VObjectPrototype
| VNative (f : string).

(** How an evaluation ends.  [HostDefined] marks a read whose result is
    fixed by the host's built-in library (the properties of built-in
    functions and of string wrappers), which this development does not
    enumerate. *)
Inductive completion (A : Type) : Type :=
| Normal (a : A)
| ThrowTypeError
| HostDefined.
Arguments Normal {A} a.
Arguments ThrowTypeError {A}.
Arguments HostDefined {A}.

#[export] Instance completion_ret : MRet completion := @Normal.
#[export] Instance completion_bind : MBind completion :=
  fun A B (k : A -> completion B) (c : completion A) =>
    match c with
    | Normal a => k a
    | ThrowTypeError => ThrowTypeError
    | HostDefined => HostDefined
    end.

(** The function-valued properties of [Object.prototype]: those of
    ECMA-262 and the legacy ones of its Annex B. *)
Definition object_prototype_methods : list string :=
  [ "constructor"; "hasOwnProperty"; "isPrototypeOf";
    "propertyIsEnumerable"; "toLocaleString"; "toString"; "valueOf";
    "__defineGetter__"; "__defineSetter__";
    "__lookupGetter__"; "__lookupSetter__" ].

Definition is_object_prototype_method (k : string) : bool :=
  existsb (String.eqb k) object_prototype_methods.

(** Every name an object literal inherits. *)
Definition inherited (k : string) : bool :=
  String.eqb k "__proto__" || is_object_prototype_method k.

(** [Object.prototype[k]], read on behalf of an object whose prototype is
    [proto]: the accessor [__proto__] answers with that prototype, the
    methods are built-in functions ([constructor] is [Object]), anything
    else is [undefined]. *)
Definition object_prototype_get (proto : value) (k : string) : value :=
  if String.eqb k "__proto__" then proto
  else if is_object_prototype_method k then
    VNative (if String.eqb k "constructor" then "Object" else k)
  else VUndefined.

(** [o[k]] for a plain object [o]: own property first, then the
    prototype chain. *)
Definition get_plain (own : gmap string string) (k : string) : value :=
  match own !! k with
  | Some s => VString s
  | None => object_prototype_get VObjectPrototype k
  end.

(** [v[k]]. Reading a property of [undefined] or [null] throws. *)
Definition Get (v : value) (k : string) : completion value :=
  match v with
  | VUndefined | VNull => ThrowTypeError
  | VObject own => Normal (get_plain own k)
  | VObjectPrototype => Normal (object_prototype_get VNull k)
  | VString _ | VNative _ => HostDefined
  end.

(** The test of [if (v)] and of [v ? a : b]. *)
Definition ToBoolean (v : value) : bool :=
  match v with
  | VUndefined | VNull => false
  | VString s => negb (String.eqb s "")
  | VObject _ | VObjectPrototype | VNative _ => true
  end.

(** [a ?? b]. *)
Definition nullish (a b : value) : value :=
  match a with
  | VUndefined | VNull => b
  | _ => a
  end.

(** The source text of a built-in function.  ECMA-262 fixes its shape
    (the [NativeFunction] grammar); this is the rendering of V8, JSC and
    Hermes. *)
Definition native_source (f : string) : string :=
  "function " ++ f ++ "() { [native code] }".

(** Conversion to a string, as string concatenation, template literals
    and the [Error] constructor perform it.  A plain object converts
    through the inherited [toString]; an own string-valued [toString]
    shadows it with something that cannot be called, and the conversion
    throws. *)
Definition ToString (v : value) : completion string :=
  match v with
  | VUndefined => Normal "undefined"
  | VNull => Normal "null"
  | VString s => Normal s
  | VObject own =>
      match own !! "toString" with
      | Some _ => ThrowTypeError
      | None => Normal "[object Object]"
      end
  | VObjectPrototype => Normal "[object Object]"
  | VNative f => Normal (native_source f)
  end.

(** A value used as a property name. *)
Definition ToPropertyKey (v : value) : completion string := ToString v.

End JS.
Export JS.

(** The line feed of the template literal. *)
Definition LF : string := String (ascii_of_nat 10) EmptyString.

(** ** The catalog *)

(** The entries of [errorCodeMessages.auth], in source order. *)
Definition auth_entries : list (string * string) :=
  [ (* OAuth 2.0 *)
    ("invalid_request",
     "The request is missing a required parameter, includes an invalid parameter value, includes a parameter more than once, or is otherwise malformed.");
    ("unauthorized_client",
     "The client is not authorized to request an authorization code using this method.");
    ("access_denied",
     "The resource owner or authorization server denied the request.");
    ("unsupported_response_type",
     "The authorization server does not support obtaining an authorization code using this method.");
    ("invalid_scope",
     "The requested scope is invalid, unknown, or malformed.");
    ("server_error",
     "The authorization server encountered an unexpected condition that prevented it from fulfilling the request. (This error code is needed because a 500 Internal Server Error HTTP status code cannot be returned to the client via an HTTP redirect.)");
    ("temporarily_unavailable",
     "The authorization server is currently unable to handle the request due to a temporary overloading or maintenance of the server.  (This error code is needed because a 503 Service Unavailable HTTP status code cannot be returned to the client via an HTTP redirect.)");
    (* Open ID Connect error codes *)
    ("interaction_required",
     "Auth server requires user interaction of some form to proceed. This error may be returned when the prompt parameter value in the auth request is none, but the auth request cannot be completed without displaying a user interface for user interaction.");
    ("login_required",
     "Auth server requires user authentication. This error may be returned when the prompt parameter value in the auth request is none, but the auth request cannot be completed without displaying a user interface for user authentication.");
    ("account_selection_required",
     "User is required to select a session at the auth server. The user may be authenticated at the auth server with different associated accounts, but the user did not select a session. This error may be returned when the prompt parameter value in the auth request is `none`, but the auth request cannot be completed without displaying a user interface to prompt for a session to use.");
    ("consent_required",
     "Auth server requires user consent. This error may be returned when the prompt parameter value in the auth request is none, but the auth request cannot be completed without displaying a user interface for user consent.");
    ("invalid_request_uri",
     "The `request_uri` in the auth request returns an error or contains invalid data.");
    ("invalid_request_object",
     "The request parameter contains an invalid request object.");
    ("request_not_supported",
     "The OP does not support use of the `request` parameter defined in Section 6. (https://openid.net/specs/openid-connect-core-1_0.html#JWTRequests)");
    ("request_uri_not_supported",
     "The OP does not support use of the `request_uri` parameter defined in Section 6. (https://openid.net/specs/openid-connect-core-1_0.html#JWTRequests)");
    ("registration_not_supported",
     "The OP does not support use of the `registration` parameter defined in Section 7.2.1. (https://openid.net/specs/openid-connect-core-1_0.html#RegistrationParameter)")
  ].

(** [errorCodeMessages.auth] as an object. *)
Definition auth : gmap string string := list_to_map auth_entries.

(** The categories of [errorCodeMessages], in source order. *)
Definition errorCodeMessages_entries : list (string * gmap string string) :=
  [ ("auth", auth) ].

Definition errorCodeMessages : gmap string (gmap string string) :=
  list_to_map errorCodeMessages_entries.

(** [errorCodeMessages[errorCodeType]]: an own category is a plain object,
    any other name is looked up in [Object.prototype]. *)
Definition errorCodeMessages_get (errorCodeType : string) : value :=
  match errorCodeMessages !! errorCodeType with
  | Some o => VObject o
  | None => object_prototype_get VObjectPrototype errorCodeType
  end.

(** ** The error values *)

(** Modelled from the spec: the base class [CodedError] of
    [@unimodules/core] is not part of the source tree.  Per the spec the
    constructed value has [code = params.error] and [message] the resolved
    message, so [super(error, errorMessage)] stores its two arguments; the
    [Error] constructor underneath converts the message to a string. *)
Record CodedError : Type := {
  code : value;
  message : string;
}.

Record ResponseErrorValue : Type := {
  coded : CodedError;
  description : value;
  uri : value;
  params : gmap string string;
}.

Record AuthErrorValue : Type := {
  response_error : ResponseErrorValue;
  state : value;
}.

(** [new ResponseError(params, errorCodeType)]. *)
Definition ResponseError (params : gmap string string) (errorCodeType : string)
  : completion ResponseErrorValue :=
  let error := get_plain params "error" in
  let error_description := get_plain params "error_description" in
  let error_uri := get_plain params "error_uri" in
  key ← ToPropertyKey error;
  message ← Get (errorCodeMessages_get errorCodeType) key;
  errorMessage ←
    (if ToBoolean message then
       more ← (if ToBoolean error_description then
                 d ← ToString error_description;
                 mret (LF ++ "More info: " ++ d)
               else mret "");
       m ← ToString message;
       mret (m ++ more)
     else if ToBoolean error_description then
       ToString error_description
     else
       mret "An unknown error occurred");
  mret {| coded := {| code := error; message := errorMessage |};
          description := nullish error_description message;
          uri := error_uri;
          params := params |}.

(** [new AuthError(response)]. *)
Definition AuthError (response : gmap string string)
  : completion AuthErrorValue :=
  r ← ResponseError response "auth";
  mret {| response_error := r; state := get_plain response "state" |}.

(** The property name the catalog is read with: [params.error], or the
    text [undefined] when the response has no such field. *)
Definition code_key (params : gmap string string) : string :=
  default "undefined" (params !! "error").

(** What a read of a plain object can produce. *)
Inductive plain_read : value -> Prop :=
| read_string s : plain_read (VString s)
| read_undefined : plain_read VUndefined
| read_prototype : plain_read VObjectPrototype
| read_native f : plain_read (VNative f).

(** The sixteen codes the specification lists for the category [auth]
    (RFC 6749 and OpenID Connect Core). *)
Definition auth_codes : list string :=
  [ "invalid_request"; "unauthorized_client"; "access_denied";
    "unsupported_response_type"; "invalid_scope"; "server_error";
    "temporarily_unavailable"; "interaction_required"; "login_required";
    "account_selection_required"; "consent_required"; "invalid_request_uri";
    "invalid_request_object"; "request_not_supported";
    "request_uri_not_supported"; "registration_not_supported" ].

(** ** Sample responses *)

(** A response is a plain object with string fields, as parsed from the
    redirect of the authorization server. *)
Definition scenario_A : gmap string string :=
  list_to_map [("error", "access_denied")].

Definition scenario_B : gmap string string :=
  list_to_map [("error", "invalid_scope");
               ("error_description", "scope xyz not recognized")].

Definition scenario_C : gmap string string :=
  list_to_map [("error", "totally_made_up")].

Definition scenario_D : gmap string string :=
  list_to_map [("error", "totally_made_up");
               ("error_description", "custom text")].

(** An unknown code with a description that is present and empty. *)
Definition empty_description : gmap string string :=
  list_to_map [("error", "totally_made_up"); ("error_description", "")].

(** A response whose code is a name every object literal inherits. *)
Definition inherited_code : gmap string string :=
  list_to_map [("error", "constructor"); ("error_description", "")].

(** A full redirect response, with fields the module does not know. *)
Definition full_response : gmap string string :=
  list_to_map [("error", "access_denied");
               ("error_description", "user cancelled");
               ("error_uri", "https://example.com/errors/access_denied");
               ("state", "xyzABC123");
               ("session_state", "a1b2c3");
               ("iss", "https://example.com")].

(** A known code with a description that is present and empty. *)
Definition known_code_empty_description : gmap string string :=
  list_to_map [("error", "access_denied"); ("error_description", "")].

(** A response without the field [error]. *)
Definition missing_error : gmap string string :=
  list_to_map [("error_description", "server said no");
               ("state", "xyzABC123")].


(** The same code and description as [full_response], nothing else. *)
Definition bare_response : gmap string string :=
  list_to_map [("error", "access_denied");
               ("error_description", "user cancelled")].

(** ** Reading properties *)

Lemma bind_Normal {A B : Type} (a : A) (k : A -> completion B) :
  (Normal a ≫= k) = k a.
Proof. reflexivity. Qed.

Lemma get_plain_own (own : gmap string string) (k s : string) :
  own !! k = Some s -> get_plain own k = VString s.
Proof. intros H. unfold get_plain. by rewrite H. Qed.

(** A missing property that [Object.prototype] does not supply reads as
    [undefined]. *)
Lemma get_plain_absent (own : gmap string string) (k : string) :
  own !! k = None -> inherited k = false -> get_plain own k = VUndefined.
Proof.
  intros H Hk. unfold get_plain, object_prototype_get. rewrite H.
  unfold inherited in Hk. apply orb_false_iff in Hk as [-> ->]. done.
Qed.

(** A missing property that [Object.prototype] supplies is never
    [undefined]: it is a built-in function or the prototype itself. *)
Lemma get_plain_inherited (own : gmap string string) (k : string) :
  own !! k = None -> inherited k = true ->
  get_plain own k = VObjectPrototype \/ exists f, get_plain own k = VNative f.
Proof.
  intros H Hk. unfold get_plain, object_prototype_get. rewrite H.
  unfold inherited in Hk. destruct (String.eqb k "__proto__"); [by left|].
  simpl in Hk. rewrite Hk. right. eauto.
Qed.

Lemma get_plain_read (own : gmap string string) (k : string) :
  plain_read (get_plain own k).
Proof.
  unfold get_plain, object_prototype_get.
  destruct (own !! k); [constructor|].
  destruct (String.eqb k "__proto__"); [constructor|].
  destruct (is_object_prototype_method k); constructor.
Qed.

Lemma ToString_plain_read (v : value) :
  plain_read v -> exists s, ToString v = Normal s.
Proof. destruct 1; simpl; eauto. Qed.

(** The fields the constructors read from a response are never names of
    [Object.prototype], so each is the own property or [undefined]. *)
Lemma get_plain_field (own : gmap string string) (k : string) :
  inherited k = false ->
  get_plain own k = from_option VString VUndefined (own !! k).
Proof.
  intros Hk. destruct (own !! k) as [s|] eqn:E; simpl.
  - by apply get_plain_own.
  - by apply get_plain_absent.
Qed.

Lemma append_empty_r (s : string) : s ++ "" = s.
Proof.
  induction s as [|a s IH]; [done|].
  change (String a (s ++ "") = String a s). by rewrite IH.
Qed.

Lemma ToBoolean_VString (s : string) :
  ToBoolean (VString s) = true <-> s <> "".
Proof.
  simpl. rewrite negb_true_iff. apply String.eqb_neq.
Qed.

(** ** The catalog as data *)

Lemma auth_entries_codes : auth_entries.*1 = auth_codes.
Proof. reflexivity. Qed.

Lemma auth_codes_NoDup : NoDup auth_codes.
Proof. apply (bool_decide_unpack _). vm_compute. exact I. Qed.

Lemma auth_lookup (c m : string) :
  auth !! c = Some m <-> (c, m) ∈ auth_entries.
Proof.
  unfold auth. symmetry. apply elem_of_list_to_map.
  rewrite auth_entries_codes. apply auth_codes_NoDup.
Qed.

(** No catalog code collides with a name of [Object.prototype], and no
    catalog message is the empty string. *)
Lemma auth_entries_sane :
  Forall (fun e => inherited e.1 = false /\ e.2 <> "") auth_entries.
Proof. repeat constructor; simpl; discriminate. Qed.

Lemma auth_not_inherited (c m : string) :
  auth !! c = Some m -> inherited c = false.
Proof.
  intros H%auth_lookup.
  by destruct (proj1 (Forall_forall _ _) auth_entries_sane _ H).
Qed.

Lemma auth_truthy (c m : string) :
  auth !! c = Some m -> ToBoolean (VString m) = true.
Proof.
  intros H%auth_lookup. apply ToBoolean_VString.
  by destruct (proj1 (Forall_forall _ _) auth_entries_sane _ H).
Qed.

Lemma errorCodeMessages_lookup (t : string) (o : gmap string string) :
  errorCodeMessages !! t = Some o <-> t = "auth" /\ o = auth.
Proof.
  unfold errorCodeMessages, errorCodeMessages_entries. simpl.
  rewrite lookup_insert_Some, lookup_empty. split.
  - intros [[<- <-]|[_ ?]]; [done | discriminate].
  - intros [-> ->]. by left.
Qed.

Lemma errorCodeMessages_get_auth : errorCodeMessages_get "auth" = VObject auth.
Proof.
  unfold errorCodeMessages_get.
  by rewrite (proj2 (errorCodeMessages_lookup "auth" auth)).
Qed.

(** A category that is neither in the catalog nor inherited reads as
    [undefined]. *)
Lemma errorCodeMessages_get_absent (t : string) :
  errorCodeMessages !! t = None -> inherited t = false ->
  errorCodeMessages_get t = VUndefined.
Proof.
  intros H Ht. unfold errorCodeMessages_get, object_prototype_get. rewrite H.
  unfold inherited in Ht. apply orb_false_iff in Ht as [-> ->]. done.
Qed.

(** ** The constructors, branch by branch *)

Lemma error_key (params : gmap string string) :
  ToPropertyKey (get_plain params "error") = Normal (code_key params).
Proof.
  rewrite get_plain_field by reflexivity. unfold code_key.
  by destruct (params !! "error").
Qed.

(** With the category [auth] the constructor is a function of the catalog
    read [auth[error]] and of the response's own fields. *)
Lemma ResponseError_auth_unfold (params : gmap string string) :
  ResponseError params "auth" =
  let error_description := from_option VString VUndefined (params !! "error_description") in
  let message := get_plain auth (code_key params) in
  errorMessage ←
    (if ToBoolean message then
       more ← (if ToBoolean error_description then
                 d ← ToString error_description;
                 mret (LF ++ "More info: " ++ d)
               else mret "");
       m ← ToString message;
       mret (m ++ more)
     else if ToBoolean error_description then
       ToString error_description
     else
       mret "An unknown error occurred");
  mret {| coded := {| code := from_option VString VUndefined (params !! "error");
                      message := errorMessage |};
          description := nullish error_description message;
          uri := from_option VString VUndefined (params !! "error_uri");
          params := params |}.
Proof.
  unfold ResponseError.
  rewrite error_key, bind_Normal, errorCodeMessages_get_auth.
  rewrite !get_plain_field by reflexivity. reflexivity.
Qed.

(** The catalog has a message for the code: the message is the catalog
    text, followed by the description when there is a non-empty one. *)
Lemma ResponseError_auth_hit (params : gmap string string) (c m : string) :
  params !! "error" = Some c -> auth !! c = Some m ->
  ResponseError params "auth" =
  Normal {| coded := {| code := VString c;
                        message := m ++ match params !! "error_description" with
                                        | Some d => if String.eqb d "" then ""
                                                    else LF ++ "More info: " ++ d
                                        | None => ""
                                        end |};
            description := from_option VString (VString m) (params !! "error_description");
            uri := from_option VString VUndefined (params !! "error_uri");
            params := params |}.
Proof.
  intros He Hc. rewrite ResponseError_auth_unfold. unfold code_key.
  rewrite He. simpl default. cbv zeta.
  rewrite (get_plain_own _ _ _ Hc), (auth_truthy _ _ Hc).
  destruct (params !! "error_description") as [d|]; simpl.
  - by destruct (String.eqb d "").
  - reflexivity.
Qed.

(** The catalog read finds nothing: the message is the description when
    there is a non-empty one, the fixed text otherwise. *)
Lemma ResponseError_auth_miss (params : gmap string string) :
  auth !! code_key params = None -> inherited (code_key params) = false ->
  ResponseError params "auth" =
  Normal {| coded := {| code := from_option VString VUndefined (params !! "error");
                        message := match params !! "error_description" with
                                   | Some d => if String.eqb d ""
                                               then "An unknown error occurred"
                                               else d
                                   | None => "An unknown error occurred"
                                   end |};
            description := from_option VString VUndefined (params !! "error_description");
            uri := from_option VString VUndefined (params !! "error_uri");
            params := params |}.
Proof.
  intros Hc Hi. rewrite ResponseError_auth_unfold. cbv zeta.
  rewrite (get_plain_absent _ _ Hc Hi).
  destruct (params !! "error_description") as [d|]; simpl.
  - by destruct (String.eqb d "").
  - reflexivity.
Qed.

(** With the category [auth] the constructor always completes normally. *)
Lemma ResponseError_auth_total (params : gmap string string) :
  exists r, ResponseError params "auth" = Normal r.
Proof.
  rewrite ResponseError_auth_unfold. cbv zeta.
  destruct (ToString_plain_read _ (get_plain_read auth (code_key params)))
    as [m Hm].
  destruct (ToBoolean (get_plain auth (code_key params))).
  - rewrite Hm. destruct (params !! "error_description") as [d|]; simpl.
    + destruct (String.eqb d ""); simpl; eauto.
    + eauto.
  - destruct (params !! "error_description") as [d|]; simpl.
    + destruct (String.eqb d ""); simpl; eauto.
    + eauto.
Qed.

(** The constructor stores the response it was given and its
    [error_uri], whatever the category and the message. *)
Lemma ResponseError_stores (input : gmap string string) (category : string)
    (r : ResponseErrorValue) :
  ResponseError input category = Normal r ->
  params r = input /\
  uri r = from_option VString VUndefined (input !! "error_uri") /\
  code (coded r) = from_option VString VUndefined (input !! "error").
Proof.
  unfold ResponseError. rewrite error_key, bind_Normal.
  rewrite !get_plain_field by reflexivity.
  destruct (Get _ _) as [message| |]; [|discriminate..].
  rewrite bind_Normal.
  match goal with |- (?c ≫= _) = _ -> _ => destruct c as [errorMessage| |] end;
    [|discriminate..].
  rewrite bind_Normal. intros [= <-]. done.
Qed.

(** Where the embedding stops: construction depends on the host's built-in
    library exactly when the category names a method of [Object.prototype],
    so that [errorCodeMessages[errorCodeType]] is a built-in function. *)
Lemma ResponseError_HostDefined (params : gmap string string) (t : string) :
  ResponseError params t = HostDefined <-> is_object_prototype_method t = true.
Proof.
  destruct (errorCodeMessages !! t) as [o|] eqn:E.
  { apply errorCodeMessages_lookup in E as [-> ->].
    destruct (ResponseError_auth_total params) as [r ->].
    split; discriminate. }
  unfold ResponseError. rewrite error_key, bind_Normal.
  unfold errorCodeMessages_get. rewrite E. unfold object_prototype_get at 1.
  destruct (String.eqb t "__proto__") eqn:P.
  - apply String.eqb_eq in P as ->. simpl Get. rewrite bind_Normal.
    rewrite !get_plain_field by reflexivity.
    split; [|discriminate]. unfold object_prototype_get.
    destruct (String.eqb (code_key params) "__proto__");
      [|destruct (is_object_prototype_method (code_key params))];
      destruct (params !! "error_description") as [d|]; simpl;
      try destruct (String.eqb d ""); discriminate.
  - destruct (is_object_prototype_method t); [done|].
    split; discriminate.
Qed.

(** [AuthError] delegates to [ResponseError] with the category [auth] and
    copies the response's [state]. *)
Lemma AuthError_delegates (response : gmap string string) :
  exists r,
    ResponseError response "auth" = Normal r /\
    AuthError response =
      Normal {| response_error := r;
                state := from_option VString VUndefined (response !! "state") |}.
Proof.
  destruct (ResponseError_auth_total response) as [r Hr].
  exists r. split; [exact Hr|].
  unfold AuthError. rewrite Hr, bind_Normal.
  by rewrite get_plain_field.
Qed.


(** ** Construction completes: category [auth] only *)

(** C1, as the code has it.  With the category [auth] construction never
    throws: for every response there is an error value it returns.  When
    the catalog read finds nothing for the code (it is not a catalog code
    and not a name inherited from [Object.prototype]) the miss is handled
    by the fallback policy: the message is [error_description] when that is
    a non-empty string and the fixed fallback text otherwise.  A category
    that is neither a key of the catalog nor a name inherited from
    [Object.prototype] is not tolerated: [errorCodeMessages[category]] is
    [undefined], and reading [[error]] of it throws a [TypeError] before
    any fallback applies. *)
Theorem C1_total_for_auth_throws_for_unknown_category :
  (forall params : gmap string string,
      exists r, ResponseError params "auth" = Normal r) /\
  (forall (params : gmap string string) (c : string),
      params !! "error" = Some c ->
      auth !! c = None -> inherited c = false ->
      exists r, ResponseError params "auth" = Normal r /\
                (forall d, params !! "error_description" = Some d -> d <> "" ->
                           message (coded r) = d) /\
                (params !! "error_description" = None \/
                 params !! "error_description" = Some "" ->
                 message (coded r) = "An unknown error occurred")) /\
  (forall (params : gmap string string) (category : string),
      errorCodeMessages !! category = None -> inherited category = false ->
      ResponseError params category = ThrowTypeError).
Proof.
  split; [exact ResponseError_auth_total|]. split.
  - intros params c He Hc Hi. eexists. split.
    { apply ResponseError_auth_miss; unfold code_key; by rewrite He. }
    simpl. split.
    + intros d -> Hne%String.eqb_neq. by rewrite Hne.
    + by intros [-> | ->].
  - intros params category Hc Hi. unfold ResponseError.
    rewrite error_key, bind_Normal, (errorCodeMessages_get_absent _ Hc Hi).
    reflexivity.
Qed.

Lemma C1_total_for_auth_throws_for_unknown_category_witness :
  errorCodeMessages !! "token" = None /\ inherited "token" = false /\
  scenario_C !! "error" = Some "totally_made_up" /\
  auth !! "totally_made_up" = None /\ inherited "totally_made_up" = false /\
  scenario_C !! "error_description" = None /\
  (exists r, ResponseError scenario_A "auth" = Normal r) /\
  (exists r, ResponseError scenario_C "auth" = Normal r /\
             message (coded r) = "An unknown error occurred") /\
  ResponseError scenario_A "token" = ThrowTypeError.
Proof.
  do 6 (split; [reflexivity|]). split; [|split].
  - apply (proj1 C1_total_for_auth_throws_for_unknown_category scenario_A).
  - destruct (proj1 (proj2 C1_total_for_auth_throws_for_unknown_category)
                scenario_C "totally_made_up")
      as [r (Hr & _ & Hm)]; [reflexivity..|].
    exists r. split; [exact Hr|]. apply Hm. by left.
  - apply (proj2 (proj2 C1_total_for_auth_throws_for_unknown_category)
             scenario_A "token"); reflexivity.
Defined.

(** C1 as stated fails: the response [{error: "access_denied"}] has a
    non-empty code, and constructing it with the category [token], which
    the catalog does not have, throws. *)
Lemma C1_unknown_category_throws :
  scenario_A !! "error" = Some "access_denied" /\
  ResponseError scenario_A "token" = ThrowTypeError /\
  ~ (forall (params : gmap string string) (category c : string),
        params !! "error" = Some c -> c <> "" ->
        exists r, ResponseError params category = Normal r).
Proof.
  assert (E : ResponseError scenario_A "token" = ThrowTypeError)
    by (vm_compute; reflexivity).
  split; [reflexivity|]. split; [exact E|].
  intros H. destruct (H scenario_A "token" "access_denied") as [r Hr];
    [reflexivity | discriminate |].
  rewrite E in Hr. discriminate.
Qed.

(** ** Message resolution *)

(** C2, as the code has it.  With the category [auth], a code for which
    the catalog read finds nothing (it is not a catalog code and not a name
    inherited from [Object.prototype]) and no [error_description], the
    message is exactly the fixed fallback text. *)
Theorem C2_unknown_code_no_description_fallback
    (params : gmap string string) (c : string) :
  params !! "error" = Some c ->
  auth !! c = None -> inherited c = false ->
  params !! "error_description" = None ->
  exists r, ResponseError params "auth" = Normal r /\
            message (coded r) = "An unknown error occurred".
Proof.
  intros He Hc Hi Hd. eexists. split.
  - apply ResponseError_auth_miss; unfold code_key; by rewrite He.
  - simpl. by rewrite Hd.
Qed.

Lemma C2_unknown_code_no_description_fallback_witness :
  scenario_C !! "error" = Some "totally_made_up" /\
  auth !! "totally_made_up" = None /\
  inherited "totally_made_up" = false /\
  scenario_C !! "error_description" = None /\
  exists r, ResponseError scenario_C "auth" = Normal r /\
            message (coded r) = "An unknown error occurred".
Proof.
  split; [reflexivity|]. split; [reflexivity|]. split; [reflexivity|].
  split; [reflexivity|].
  apply (C2_unknown_code_no_description_fallback scenario_C "totally_made_up");
    reflexivity.
Defined.

(** C2 as stated fails for a category the catalog does not have: the code
    [totally_made_up] has no entry for the category [token] and there is no
    description, yet no message is produced, the construction throws. *)
Lemma C2_unknown_category_no_message :
  errorCodeMessages !! "token" = None /\
  scenario_C !! "error_description" = None /\
  ResponseError scenario_C "token" = ThrowTypeError /\
  ~ (exists r, ResponseError scenario_C "token" = Normal r /\
               message (coded r) = "An unknown error occurred").
Proof.
  assert (E : ResponseError scenario_C "token" = ThrowTypeError)
    by (vm_compute; reflexivity).
  split; [reflexivity|]. split; [reflexivity|]. split; [exact E|].
  intros [r [Hr _]]. rewrite E in Hr. discriminate.
Qed.

(** C3.  For a catalog code [c] with message [m] and a non-empty
    description [d], constructing with the category [auth] gives the
    message [m], a line feed, [More info: ] and [d], and the description
    [d]; in particular for [invalid_scope] with the description
    [scope xyz not recognized]. *)
Theorem C3_known_code_with_description :
  (forall (params : gmap string string) (c m d : string),
      auth !! c = Some m -> d <> "" ->
      params !! "error" = Some c ->
      params !! "error_description" = Some d ->
      exists r, ResponseError params "auth" = Normal r /\
                message (coded r) = m ++ LF ++ "More info: " ++ d /\
                description r = VString d) /\
  (exists r, ResponseError scenario_B "auth" = Normal r /\
             message (coded r) =
               "The requested scope is invalid, unknown, or malformed."
               ++ LF ++ "More info: scope xyz not recognized").
Proof.
  assert (G : forall (params : gmap string string) (c m d : string),
      auth !! c = Some m -> d <> "" ->
      params !! "error" = Some c ->
      params !! "error_description" = Some d ->
      exists r, ResponseError params "auth" = Normal r /\
                message (coded r) = m ++ LF ++ "More info: " ++ d /\
                description r = VString d).
  { intros params c m d Hc Hd He Hdesc. eexists. split.
    - by apply ResponseError_auth_hit.
    - simpl. rewrite Hdesc. simpl.
      apply String.eqb_neq in Hd. by rewrite Hd. }
  split; [exact G|].
  destruct (G scenario_B "invalid_scope"
              "The requested scope is invalid, unknown, or malformed."
              "scope xyz not recognized") as [r [Hr [Hm _]]];
    [reflexivity | discriminate | reflexivity | reflexivity |].
  eauto.
Qed.

Lemma C3_known_code_with_description_witness :
  auth !! "invalid_scope"
    = Some "The requested scope is invalid, unknown, or malformed." /\
  "scope xyz not recognized" <> "" /\
  scenario_B !! "error" = Some "invalid_scope" /\
  scenario_B !! "error_description" = Some "scope xyz not recognized" /\
  exists r, ResponseError scenario_B "auth" = Normal r /\
            message (coded r) =
              "The requested scope is invalid, unknown, or malformed."
              ++ LF ++ "More info: scope xyz not recognized" /\
            description r = VString "scope xyz not recognized".
Proof.
  split; [reflexivity|]. split; [discriminate|]. split; [reflexivity|].
  split; [reflexivity|].
  apply (proj1 C3_known_code_with_description scenario_B "invalid_scope");
    [reflexivity | discriminate | reflexivity | reflexivity].
Defined.

(** C4.  For a catalog code [c] with message [m] and no description,
    constructing with the category [auth] gives the message [m] and the
    description [m]; in particular [{error: "access_denied"}] gives that
    code's text as message and as description, and no [uri]. *)
Theorem C4_known_code_without_description :
  (forall (params : gmap string string) (c m : string),
      auth !! c = Some m ->
      params !! "error" = Some c ->
      params !! "error_description" = None ->
      exists r, ResponseError params "auth" = Normal r /\
                message (coded r) = m /\
                description r = VString m) /\
  (exists r, ResponseError scenario_A "auth" = Normal r /\
             message (coded r) =
               "The resource owner or authorization server denied the request." /\
             description r =
               VString "The resource owner or authorization server denied the request." /\
             uri r = VUndefined).
Proof.
  split.
  - intros params c m Hc He Hd. eexists. split.
    + by apply ResponseError_auth_hit.
    + simpl. rewrite Hd. simpl. split; [apply append_empty_r | done].
  - eexists. split.
    + by apply (ResponseError_auth_hit scenario_A "access_denied").
    + done.
Qed.

Lemma C4_known_code_without_description_witness :
  auth !! "access_denied"
    = Some "The resource owner or authorization server denied the request." /\
  scenario_A !! "error" = Some "access_denied" /\
  scenario_A !! "error_description" = None /\
  exists r, ResponseError scenario_A "auth" = Normal r /\
            message (coded r) =
              "The resource owner or authorization server denied the request." /\
            description r =
              VString "The resource owner or authorization server denied the request.".
Proof.
  split; [reflexivity|]. split; [reflexivity|]. split; [reflexivity|].
  apply (proj1 C4_known_code_without_description scenario_A "access_denied");
    reflexivity.
Defined.

(** C5, as the code has it.  With the category [auth] and a code for which
    the catalog read finds nothing, a non-empty [error_description] is the
    message verbatim, with no catalog text and no [More info: ] prefix.  A
    description that is present and empty does not pass the test of
    [else if (error_description)]: the message is then the fallback text. *)
Theorem C5_unknown_code_with_description
    (params : gmap string string) (c d : string) :
  params !! "error" = Some c ->
  auth !! c = None -> inherited c = false ->
  params !! "error_description" = Some d ->
  exists r, ResponseError params "auth" = Normal r /\
            (d <> "" -> message (coded r) = d) /\
            (d = "" -> message (coded r) = "An unknown error occurred").
Proof.
  intros He Hc Hi Hd. eexists. split.
  - apply ResponseError_auth_miss; unfold code_key; by rewrite He.
  - simpl. rewrite Hd. split.
    + intros Hne%String.eqb_neq. by rewrite Hne.
    + by intros ->.
Qed.

Lemma C5_unknown_code_with_description_witness :
  scenario_D !! "error" = Some "totally_made_up" /\
  auth !! "totally_made_up" = None /\
  inherited "totally_made_up" = false /\
  scenario_D !! "error_description" = Some "custom text" /\
  exists r, ResponseError scenario_D "auth" = Normal r /\
            message (coded r) = "custom text".
Proof.
  split; [reflexivity|]. split; [reflexivity|]. split; [reflexivity|].
  split; [reflexivity|].
  destruct (C5_unknown_code_with_description scenario_D
              "totally_made_up" "custom text")
    as [r [Hr [Hm _]]]; [reflexivity..|].
  exists r. split; [exact Hr|]. apply Hm. discriminate.
Defined.

(** C5 as stated fails when the description is present and empty: the code
    [totally_made_up] is not in the catalog, [error_description] is the
    empty string, and the message is the fallback text, not the
    description. *)
Lemma C5_empty_description_is_not_the_message :
  auth !! "totally_made_up" = None /\
  empty_description !! "error_description" = Some "" /\
  exists r, ResponseError empty_description "auth" = Normal r /\
            message (coded r) = "An unknown error occurred" /\
            message (coded r) <> "".
Proof.
  split; [reflexivity|]. split; [reflexivity|].
  eexists. split; [vm_compute; reflexivity|].
  split; [reflexivity | discriminate].
Qed.

(** ** [AuthError] *)

(** C6.  Constructing an [AuthError] is constructing a [ResponseError] from
    the same response with the category [auth], which always succeeds, and
    adding the response's [state]: the string itself when the response has
    one, [undefined] when it has none. *)
Theorem C6_AuthError_is_ResponseError_auth_with_state
    (response : gmap string string) :
  exists (r : ResponseErrorValue) (a : AuthErrorValue),
    ResponseError response "auth" = Normal r /\
    AuthError response = Normal a /\
    response_error a = r /\
    code (coded (response_error a)) = code (coded r) /\
    message (coded (response_error a)) = message (coded r) /\
    description (response_error a) = description r /\
    uri (response_error a) = uri r /\
    params (response_error a) = params r /\
    (forall s, response !! "state" = Some s -> state a = VString s) /\
    (response !! "state" = None -> state a = VUndefined).
Proof.
  destruct (AuthError_delegates response) as [r [Hr Ha]].
  exists r. eexists. split; [exact Hr|]. split; [exact Ha|]. simpl.
  repeat (split; [reflexivity|]).
  split; [intros s Hs | intros Hs]; by rewrite Hs.
Qed.

(** ** The fields copied from the response *)

(** C7.  Whenever construction returns, with any category, the [params] of
    the error is the response it was given, unknown fields included; and an
    [AuthError] is always returned and holds the whole response. *)
Theorem C7_params_is_the_whole_input (input : gmap string string) :
  (forall (category : string) (r : ResponseErrorValue),
      ResponseError input category = Normal r -> params r = input) /\
  (exists a, AuthError input = Normal a /\
             params (response_error a) = input).
Proof.
  split.
  - intros category r Hr. by destruct (ResponseError_stores _ _ _ Hr).
  - destruct (AuthError_delegates input) as [r [Hr Ha]].
    eexists. split; [exact Ha|]. simpl.
    by destruct (ResponseError_stores _ _ _ Hr).
Qed.

Lemma C7_params_is_the_whole_input_witness :
  exists r, ResponseError full_response "auth" = Normal r /\
            params r = full_response /\
            params r !! "session_state" = Some "a1b2c3" /\
            params r !! "iss" = Some "https://example.com".
Proof.
  destruct (ResponseError_auth_total full_response) as [r Hr].
  exists r. split; [exact Hr|].
  rewrite (proj1 (C7_params_is_the_whole_input full_response) "auth" r Hr).
  split; [reflexivity|]. split; reflexivity.
Defined.

(** C8.  Whenever construction returns, with any category, the [uri] of the
    error is the response's [error_uri] when it has one and [undefined]
    when it has none; and an [AuthError] is always returned with that
    [uri]. *)
Theorem C8_uri_mirrors_error_uri (input : gmap string string) :
  (forall (category : string) (r : ResponseErrorValue),
      ResponseError input category = Normal r ->
      (forall u, input !! "error_uri" = Some u -> uri r = VString u) /\
      (input !! "error_uri" = None -> uri r = VUndefined)) /\
  (exists a, AuthError input = Normal a /\
             uri (response_error a)
               = from_option VString VUndefined (input !! "error_uri")).
Proof.
  split.
  - intros category r Hr.
    destruct (ResponseError_stores _ _ _ Hr) as (_ & -> & _).
    split; [intros u Hu | intros Hu]; by rewrite Hu.
  - destruct (AuthError_delegates input) as [r [Hr Ha]].
    eexists. split; [exact Ha|]. simpl.
    by destruct (ResponseError_stores _ _ _ Hr) as (_ & -> & _).
Qed.

Lemma C8_uri_mirrors_error_uri_witness :
  full_response !! "error_uri"
    = Some "https://example.com/errors/access_denied" /\
  scenario_A !! "error_uri" = None /\
  (exists r, ResponseError full_response "auth" = Normal r /\
             uri r = VString "https://example.com/errors/access_denied") /\
  (exists r, ResponseError scenario_A "auth" = Normal r /\
             uri r = VUndefined).
Proof.
  split; [reflexivity|]. split; [reflexivity|]. split.
  - destruct (ResponseError_auth_total full_response) as [r Hr].
    exists r. split; [exact Hr|].
    apply (proj1 (proj1 (C8_uri_mirrors_error_uri full_response) "auth" r Hr)).
    reflexivity.
  - destruct (ResponseError_auth_total scenario_A) as [r Hr].
    exists r. split; [exact Hr|].
    apply (proj2 (proj1 (C8_uri_mirrors_error_uri scenario_A) "auth" r Hr)).
    reflexivity.
Defined.

(** ** The catalog *)

(** C9.  The catalog has the one category [auth]; its codes are exactly the
    sixteen listed, each once, each with a non-empty message, and a code
    has a message exactly when it is one of them.  The catalog is a
    constant: the constructors only read it. *)
Theorem C9_catalog_is_auth_with_sixteen_codes :
  errorCodeMessages_entries.*1 = ["auth"] /\
  (forall t o, errorCodeMessages !! t = Some o <-> t = "auth" /\ o = auth) /\
  auth_entries.*1 = auth_codes /\
  NoDup auth_codes /\
  length auth_codes = 16 /\
  size auth = 16 /\
  (forall c, is_Some (auth !! c) <-> c ∈ auth_codes) /\
  (forall c m, auth !! c = Some m <-> (c, m) ∈ auth_entries) /\
  (forall c m, auth !! c = Some m -> m <> "").
Proof.
  split; [reflexivity|]. split; [exact errorCodeMessages_lookup|].
  split; [reflexivity|]. split; [exact auth_codes_NoDup|].
  split; [reflexivity|]. split.
  { unfold auth. rewrite map_size_list_to_map; [reflexivity|].
    rewrite auth_entries_codes. exact auth_codes_NoDup. }
  split.
  { intros c. rewrite <- auth_entries_codes, list_elem_of_fmap. split.
    - intros [m Hm%auth_lookup]. by exists (c, m).
    - intros [[c' m] [-> Hm]]. exists m. by apply auth_lookup. }
  split; [exact auth_lookup|].
  intros c m H. by apply ToBoolean_VString, (auth_truthy c).
Qed.

(** ** Names inherited from [Object.prototype] *)

(** When the code is a name every object literal inherits, [auth[error]]
    is a built-in and not [undefined]; the message is the text of that
    built-in and never the fallback. *)
Lemma inherited_code_never_falls_back (params : gmap string string) (c : string) :
  params !! "error" = Some c -> inherited c = true ->
  exists r, ResponseError params "auth" = Normal r /\
            message (coded r) <> "An unknown error occurred".
Proof.
  intros He Hi.
  assert (Hc : auth !! c = None).
  { destruct (auth !! c) as [m|] eqn:E; [|done].
    apply auth_not_inherited in E. congruence. }
  rewrite ResponseError_auth_unfold. unfold code_key. rewrite He.
  simpl default. cbv zeta.
  destruct (get_plain_inherited _ _ Hc Hi) as [-> | [f ->]];
    destruct (params !! "error_description") as [d|]; simpl;
    try destruct (String.eqb d ""); simpl;
    eexists; (split; [reflexivity|]);
    simpl; unfold native_source; cbv [String.append]; discriminate.
Qed.

(** With a code for which the catalog read finds nothing and an empty
    description, the two presence tests disagree: the message is the
    fallback text, the description is the empty string. *)
Lemma presence_tests_disagree_on_miss (params : gmap string string) (c : string) :
  params !! "error" = Some c ->
  auth !! c = None -> inherited c = false ->
  params !! "error_description" = Some "" ->
  exists r, ResponseError params "auth" = Normal r /\
            message (coded r) = "An unknown error occurred" /\
            description r = VString "".
Proof.
  intros He Hc Hi Hd. eexists. split.
  - apply ResponseError_auth_miss; unfold code_key; by rewrite He.
  - simpl. by rewrite Hd.
Qed.

(** C10 at [{error: "constructor", error_description: ""}].  The code is
    not in the catalog and the description is the empty string; the
    description of the error is the empty string, but the message is the
    source text of [Object] and not the fallback text. *)
Theorem C10_inherited_code_with_empty_description :
  inherited_code !! "error" = Some "constructor" /\
  auth !! "constructor" = None /\
  inherited_code !! "error_description" = Some "" /\
  exists r, ResponseError inherited_code "auth" = Normal r /\
            message (coded r) = "function Object() { [native code] }" /\
            message (coded r) <> "An unknown error occurred" /\
            description r = VString "".
Proof.
  split; [reflexivity|]. split; [reflexivity|]. split; [reflexivity|].
  eexists. split; [vm_compute; reflexivity|].
  split; [reflexivity|]. split; [discriminate | reflexivity].
Qed.

(** ** Further properties of the constructors *)

Lemma append_nonempty (m x : string) : m <> "" -> m ++ x <> "".
Proof. destruct m as [|a m]; [done|]. intros _. discriminate. Qed.

(** Whenever construction returns, the description is
    [error_description ?? message] for the value [message] the catalog
    read produced. *)
Lemma ResponseError_description (input : gmap string string) (category : string)
    (r : ResponseErrorValue) :
  ResponseError input category = Normal r ->
  exists message,
    Get (errorCodeMessages_get category) (code_key input) = Normal message /\
    description r =
      nullish (from_option VString VUndefined (input !! "error_description"))
              message.
Proof.
  unfold ResponseError. rewrite error_key, bind_Normal.
  rewrite !get_plain_field by reflexivity.
  destruct (Get _ _) as [message| |]; [|discriminate..].
  rewrite bind_Normal.
  match goal with |- (?c ≫= _) = _ -> _ => destruct c as [errorMessage| |] end;
    [|discriminate..].
  rewrite bind_Normal. intros [= <-]. eauto.
Qed.

(** With the category [__proto__] the catalog read is a read of
    [Object.prototype] itself, and construction returns. *)
Lemma ResponseError_proto_total (params : gmap string string) :
  exists r, ResponseError params "__proto__" = Normal r.
Proof.
  unfold ResponseError. rewrite error_key, bind_Normal.
  rewrite !get_plain_field by reflexivity.
  change (errorCodeMessages_get "__proto__") with VObjectPrototype.
  simpl Get. rewrite bind_Normal. unfold object_prototype_get.
  destruct (String.eqb (code_key params) "__proto__");
    [|destruct (is_object_prototype_method (code_key params))];
    destruct (params !! "error_description") as [d|]; simpl;
    try destruct (String.eqb d ""); simpl; eauto.
Qed.

(** With the category [auth], the description of the error is the
    response's [error_description] whenever it has one, the empty string
    included, whatever the code: known, unknown, or a name inherited from
    [Object.prototype]. *)
Theorem description_is_error_description_when_present
    (params : gmap string string) (d : string) :
  params !! "error_description" = Some d ->
  exists r, ResponseError params "auth" = Normal r /\
            description r = VString d.
Proof.
  intros Hd. destruct (ResponseError_auth_total params) as [r Hr].
  exists r. split; [exact Hr|].
  destruct (ResponseError_description _ _ _ Hr) as [m [_ ->]].
  by rewrite Hd.
Qed.

Lemma description_is_error_description_when_present_witness :
  inherited_code !! "error_description" = Some "" /\
  exists r, ResponseError inherited_code "auth" = Normal r /\
            description r = VString "".
Proof.
  split; [reflexivity|].
  apply (description_is_error_description_when_present inherited_code "").
  reflexivity.
Defined.

(** A known code with a description that is present and empty: the
    message is the catalog text alone, without a [More info: ] line, while
    the description is the empty string and not the catalog text. *)
Theorem known_code_with_empty_description
    (params : gmap string string) (c m : string) :
  auth !! c = Some m ->
  params !! "error" = Some c ->
  params !! "error_description" = Some "" ->
  exists r, ResponseError params "auth" = Normal r /\
            message (coded r) = m /\
            description r = VString "" /\
            description r <> VString m.
Proof.
  intros Hc He Hd. eexists. split; [by apply ResponseError_auth_hit|].
  simpl. rewrite Hd. simpl. split; [apply append_empty_r|].
  split; [done|]. intros [= <-].
  by apply auth_truthy in Hc.
Qed.

Lemma known_code_with_empty_description_witness :
  auth !! "access_denied"
    = Some "The resource owner or authorization server denied the request." /\
  known_code_empty_description !! "error" = Some "access_denied" /\
  known_code_empty_description !! "error_description" = Some "" /\
  exists r, ResponseError known_code_empty_description "auth" = Normal r /\
            message (coded r) =
              "The resource owner or authorization server denied the request." /\
            description r = VString "".
Proof.
  split; [reflexivity|]. split; [reflexivity|]. split; [reflexivity|].
  destruct (known_code_with_empty_description known_code_empty_description
              "access_denied"
              "The resource owner or authorization server denied the request.")
    as [r (Hr & Hm & Hd & _)]; [reflexivity..|].
  exists r. auto.
Defined.



(** A code that does not name a property of [Object.prototype]: the
    description is a string or [undefined], as the field is declared, and
    it is [undefined] exactly when the response has no description and the
    catalog does not know the code. *)
Theorem description_is_a_string_or_undefined
    (params : gmap string string) (c : string) :
  params !! "error" = Some c -> inherited c = false ->
  exists r, ResponseError params "auth" = Normal r /\
            (description r = VUndefined \/ exists s, description r = VString s) /\
            (description r = VUndefined <->
             params !! "error_description" = None /\ auth !! c = None).
Proof.
  intros He Hi. destruct (auth !! c) as [m|] eqn:Hc.
  - eexists. split; [by apply ResponseError_auth_hit|]. simpl.
    destruct (params !! "error_description") as [d|]; simpl;
      (split; [eauto|]); split; try discriminate; intros [? ?]; discriminate.
  - eexists. split.
    { apply ResponseError_auth_miss; unfold code_key; by rewrite He. }
    simpl. destruct (params !! "error_description") as [d|]; simpl;
      (split; [eauto|]); split; try discriminate; try done.
    intros [? ?]; discriminate.
Qed.

Lemma description_is_a_string_or_undefined_witness :
  scenario_C !! "error" = Some "totally_made_up" /\
  inherited "totally_made_up" = false /\
  exists r, ResponseError scenario_C "auth" = Normal r /\
            description r = VUndefined.
Proof.
  split; [reflexivity|]. split; [reflexivity|].
  destruct (description_is_a_string_or_undefined scenario_C "totally_made_up")
    as [r (Hr & _ & Hu)]; [reflexivity..|].
  exists r. split; [exact Hr|]. apply Hu. split; reflexivity.
Defined.

(** A response without the field [error]: the catalog is read with the
    name [undefined], which it does not have, so the code of the error is
    [undefined] and the message is the description when that is a
    non-empty string and the fallback text otherwise. *)
Theorem missing_error_field (params : gmap string string) :
  params !! "error" = None ->
  exists r, ResponseError params "auth" = Normal r /\
            code (coded r) = VUndefined /\
            (forall d, params !! "error_description" = Some d -> d <> "" ->
                       message (coded r) = d) /\
            (params !! "error_description" = None \/
             params !! "error_description" = Some "" ->
             message (coded r) = "An unknown error occurred").
Proof.
  intros He. eexists. split.
  { apply ResponseError_auth_miss; unfold code_key; by rewrite He. }
  simpl. rewrite He. split; [done|]. split.
  - intros d -> Hne%String.eqb_neq. by rewrite Hne.
  - by intros [-> | ->].
Qed.

Lemma missing_error_field_witness :
  missing_error !! "error" = None /\
  missing_error !! "error_description" = Some "server said no" /\
  exists r, ResponseError missing_error "auth" = Normal r /\
            code (coded r) = VUndefined /\
            message (coded r) = "server said no".
Proof.
  split; [reflexivity|]. split; [reflexivity|].
  destruct (missing_error_field missing_error) as [r (Hr & Hc & Hm & _)];
    [reflexivity|].
  exists r. split; [exact Hr|]. split; [exact Hc|].
  apply Hm; [reflexivity | discriminate].
Defined.

(** Which categories construction accepts.  Apart from the categories
    that name a method of [Object.prototype], construction returns exactly
    for [auth] and [__proto__] and throws a [TypeError] for every other
    category, whatever the response. *)
Theorem category_decides_completion
    (params : gmap string string) (category : string) :
  is_object_prototype_method category = false ->
  ((exists r, ResponseError params category = Normal r) <->
   category = "auth" \/ category = "__proto__") /\
  (ResponseError params category = ThrowTypeError <->
   category <> "auth" /\ category <> "__proto__").
Proof.
  intros Hm.
  destruct (String.eqb_spec category "auth") as [-> | Ha].
  { destruct (ResponseError_auth_total params) as [r Hr]. split.
    - split; eauto.
    - rewrite Hr. split; [discriminate | by intros [? _]]. }
  destruct (String.eqb_spec category "__proto__") as [-> | Hp].
  { destruct (ResponseError_proto_total params) as [r Hr]. split.
    - split; eauto.
    - rewrite Hr. split; [discriminate | by intros [_ ?]]. }
  assert (E : ResponseError params category = ThrowTypeError).
  { unfold ResponseError. rewrite error_key, bind_Normal.
    rewrite errorCodeMessages_get_absent; [reflexivity | |].
    - destruct (errorCodeMessages !! category) as [o|] eqn:E; [|done].
      by apply errorCodeMessages_lookup in E as [-> _].
    - unfold inherited. rewrite Hm.
      apply String.eqb_neq in Hp. by rewrite Hp. }
  rewrite E. split.
  - split; [intros [r ?]; discriminate | intros [?|?]; done].
  - split; done.
Qed.

Lemma category_decides_completion_witness :
  is_object_prototype_method "Auth" = false /\
  ResponseError scenario_A "Auth" = ThrowTypeError.
Proof.
  split; [reflexivity|].
  apply (proj2 (category_decides_completion scenario_A "Auth" eq_refl)).
  split; discriminate.
Defined.

(** The code, the message and the description depend on the response's
    [error] and [error_description] only: [error_uri], [state] and any
    other field of the response have no influence on them. *)
Theorem message_depends_on_error_and_description_only
    (p1 p2 : gmap string string) :
  p1 !! "error" = p2 !! "error" ->
  p1 !! "error_description" = p2 !! "error_description" ->
  exists r1 r2,
    ResponseError p1 "auth" = Normal r1 /\
    ResponseError p2 "auth" = Normal r2 /\
    coded r1 = coded r2 /\
    description r1 = description r2.
Proof.
  intros He Hd.
  destruct (ResponseError_auth_total p1) as [r1 H1].
  destruct (ResponseError_auth_total p2) as [r2 H2].
  exists r1, r2. split; [exact H1|]. split; [exact H2|].
  rewrite ResponseError_auth_unfold in H1, H2. unfold code_key in H1, H2.
  cbv zeta in H1, H2. rewrite He, Hd in H1.
  match type of H2 with
  | (?c ≫= _) = _ => destruct c as [errorMessage| |]; [|discriminate..]
  end.
  rewrite bind_Normal in H1, H2.
  injection H1 as <-. injection H2 as <-. done.
Qed.

Lemma message_depends_on_error_and_description_only_witness :
  full_response !! "error" = bare_response !! "error" /\
  full_response !! "error_description" = bare_response !! "error_description" /\
  full_response <> bare_response /\
  exists r1 r2,
    ResponseError full_response "auth" = Normal r1 /\
    ResponseError bare_response "auth" = Normal r2 /\
    coded r1 = coded r2 /\
    description r1 = description r2.
Proof.
  split; [reflexivity|]. split; [reflexivity|]. split.
  - intros E. apply (f_equal (fun m : gmap string string => m !! "state")) in E.
    discriminate E.
  - apply (message_depends_on_error_and_description_only
             full_response bare_response); reflexivity.
Defined.

(** The message of an error is never the empty string, whatever the
    response. *)
Theorem message_is_never_empty (params : gmap string string) :
  exists r, ResponseError params "auth" = Normal r /\
            message (coded r) <> "".
Proof.
  rewrite ResponseError_auth_unfold. cbv zeta.
  pose proof (get_plain_read auth (code_key params)) as Hv.
  destruct Hv as [s| | |f].
  - destruct (ToBoolean (VString s)) eqn:Hs.
    + apply ToBoolean_VString in Hs.
      destruct (params !! "error_description") as [d|]; simpl;
        try destruct (String.eqb d ""); simpl;
        eexists; (split; [reflexivity|]); simpl; by apply append_nonempty.
    + destruct (params !! "error_description") as [d|]; simpl;
        [destruct (String.eqb d "") eqn:Hd|]; simpl;
        eexists; (split; [reflexivity|]); simpl; try discriminate.
      by apply String.eqb_neq.
  - destruct (params !! "error_description") as [d|]; simpl;
      [destruct (String.eqb d "") eqn:Hd|]; simpl;
      eexists; (split; [reflexivity|]); simpl; try discriminate.
    by apply String.eqb_neq.
  - destruct (params !! "error_description") as [d|]; simpl;
      try destruct (String.eqb d ""); simpl;
      eexists; (split; [reflexivity|]); simpl; discriminate.
  - destruct (params !! "error_description") as [d|]; simpl;
      try destruct (String.eqb d ""); simpl;
      eexists; (split; [reflexivity|]); simpl;
      unfold native_source; discriminate.
Qed.

(** The retained [params] are enough to build the error again:
    constructing an [AuthError] from the [params] of a constructed
    [AuthError] gives the same error, [state] included. *)
Theorem AuthError_rebuilt_from_params (response : gmap string string) :
  exists a, AuthError response = Normal a /\
            AuthError (params (response_error a)) = Normal a.
Proof.
  destruct (AuthError_delegates response) as [r [Hr Ha]].
  eexists. split; [exact Ha|]. simpl.
  destruct (ResponseError_stores _ _ _ Hr) as (-> & _). exact Ha.
Qed.

(** Distinct catalog codes have distinct messages, so for known codes
    without a description the message of the error determines the code. *)
Theorem message_determines_known_code
    (p1 p2 : gmap string string) (c1 c2 : string)
    (r1 r2 : ResponseErrorValue) :
  p1 !! "error" = Some c1 -> is_Some (auth !! c1) ->
  p1 !! "error_description" = None ->
  p2 !! "error" = Some c2 -> is_Some (auth !! c2) ->
  p2 !! "error_description" = None ->
  ResponseError p1 "auth" = Normal r1 ->
  ResponseError p2 "auth" = Normal r2 ->
  message (coded r1) = message (coded r2) ->
  c1 = c2.
Proof.
  intros He1 [m1 Hm1] Hd1 He2 [m2 Hm2] Hd2 H1 H2 Hmsg.
  rewrite (ResponseError_auth_hit _ _ _ He1 Hm1) in H1.
  rewrite (ResponseError_auth_hit _ _ _ He2 Hm2) in H2.
  injection H1 as <-. injection H2 as <-. simpl in Hmsg.
  rewrite Hd1, Hd2, !append_empty_r in Hmsg. subst m2.
  apply auth_lookup, list_elem_of_lookup in Hm1 as [i Hi].
  apply auth_lookup, list_elem_of_lookup in Hm2 as [j Hj].
  assert (Hij : i = j).
  { assert (N : NoDup auth_entries.*2)
      by (apply (bool_decide_unpack _); vm_compute; exact I).
    apply (NoDup_lookup _ i j m1 N); rewrite list_lookup_fmap.
    - by rewrite Hi.
    - by rewrite Hj. }
  subst j. congruence.
Qed.

Lemma message_determines_known_code_witness :
  exists r, ResponseError scenario_A "auth" = Normal r /\
            "access_denied" = "access_denied".
Proof.
  destruct (ResponseError_auth_total scenario_A) as [r Hr].
  exists r. split; [exact Hr|].
  apply (message_determines_known_code scenario_A scenario_A
           "access_denied" "access_denied" r r);
    try reflexivity; try exact Hr;
    exists "The resource owner or authorization server denied the request.";
    reflexivity.
Defined.
